(** * Confirmation API client (src/confirm.js): a shallow embedding.

    The module is a factory [function (common, deps)] returning an object of
    operations.  Every operation builds one HTTP request, hands it to a
    transport (the browser [fetch] or [superagent]) and maps the transport's
    answer to one call of the callback [cb].

    JavaScript values are modelled with an explicit heap so that object
    identity and in-place mutation (the [err.message = ...] assignments) are
    visible: objects live in the heap and values refer to them by location. *)

From Stdlib Require Import String Ascii ZArith List Bool Lia.
Import ListNotations.
Open Scope string_scope.

(** ** JavaScript values, objects and the heap *)
Module JS.

Inductive jsval : Type :=
| JUndef
| JNull
| JBool (b : bool)
| JNum (z : Z)
| JStr (s : string)
| JRef (l : nat).

(** An object: its class ("Object", "Array", "Error") and its own
    properties in insertion order. *)
Record jsobj : Type := mkobj { o_class : string; o_props : list (string * jsval) }.

Definition heap : Type := list jsobj.

Definition jsval_eq_dec (x y : jsval) : {x = y} + {x <> y}.
Proof. decide equality; auto using string_dec, Z.eq_dec, bool_dec, Nat.eq_dec. Defined.

(** [x === y] (numbers are integers here, so NaN does not arise). *)
Definition strict_eq (x y : jsval) : bool := if jsval_eq_dec x y then true else false.

(** [x != null]: loose inequality with null holds for all but undefined and null. *)
Definition is_nullish (v : jsval) : bool :=
  match v with JUndef | JNull => true | _ => false end.

Definition truthy (v : jsval) : bool :=
  match v with
  | JUndef | JNull => false
  | JBool b => b
  | JNum z => negb (Z.eqb z 0)
  | JStr s => negb (String.eqb s "")
  | JRef _ => true
  end.

(** [a || b] once both operands are evaluated. *)
Definition js_or (a b : jsval) : jsval := if truthy a then a else b.

Fixpoint lookup_prop (ps : list (string * jsval)) (k : string) : option jsval :=
  match ps with
  | [] => None
  | (k', v) :: ps' => if String.eqb k k' then Some v else lookup_prop ps' k
  end.

(** Property read [v.k]: [None] is the TypeError raised on undefined and null;
    a missing property reads as undefined; properties of primitives are not
    used by the module and read as undefined. *)
Definition getp (h : heap) (v : jsval) (k : string) : option jsval :=
  match v with
  | JUndef | JNull => None
  | JRef l =>
      match nth_error h l with
      | Some o => Some (match lookup_prop (o_props o) k with Some x => x | None => JUndef end)
      | None => None
      end
  | _ => Some JUndef
  end.

Fixpoint upd_prop (ps : list (string * jsval)) (k : string) (x : jsval) : list (string * jsval) :=
  match ps with
  | [] => [(k, x)]
  | (k', v) :: ps' => if String.eqb k k' then (k', x) :: ps' else (k', v) :: upd_prop ps' k x
  end.

Fixpoint replace_nth {A} (xs : list A) (n : nat) (y : A) : list A :=
  match xs, n with
  | [], _ => []
  | _ :: xs', O => y :: xs'
  | x :: xs', S n' => x :: replace_nth xs' n' y
  end.

(** Property write [v.k = x] in strict mode: only objects accept it, the
    other values raise a TypeError ([None]). *)
Definition setp (h : heap) (v : jsval) (k : string) (x : jsval) : option heap :=
  match v with
  | JRef l =>
      match nth_error h l with
      | Some o => Some (replace_nth h l (mkobj (o_class o) (upd_prop (o_props o) k x)))
      | None => None
      end
  | _ => None
  end.

(** Allocation of a fresh object at the end of the heap. *)
Definition alloc (h : heap) (o : jsobj) : jsval * heap := (JRef (length h), app h [o]).

Definition new_object (ps : list (string * jsval)) : jsobj := mkobj "Object" ps.
Definition new_array : jsobj := mkobj "Array" [].
(** [new Error(msg)]: an Error with its own [message] property. *)
Definition new_error (msg : string) : jsobj := mkobj "Error" [("message", JStr msg)].

(** [a && a.k1 && a.k1.k2 && ...] with [a] already evaluated. *)
Fixpoint get_chain (h : heap) (v : jsval) (ks : list string) : option jsval :=
  match ks with
  | [] => Some v
  | k :: ks' => if truthy v then match getp h v k with
                                 | Some x => get_chain h x ks'
                                 | None => None
                                 end
                else Some v
  end.

(** Decimal rendering of an integer, as [Number.prototype.toString]. *)
Fixpoint digits (fuel : nat) (n : Z) (acc : string) : string :=
  match fuel with
  | O => acc
  | S f =>
      let acc' := String (ascii_of_nat (48 + Z.to_nat (Z.modulo n 10))) acc in
      if Z.ltb n 10 then acc' else digits f (Z.div n 10) acc'
  end.

Definition Z_to_decimal (z : Z) : string :=
  if Z.ltb z 0 then "-" ++ digits 64 (- z) "" else digits 64 z "".

(** String conversion used by template literals and [+] on strings
    (plain objects only: no custom [toString]). *)
Definition to_js_string (v : jsval) : string :=
  match v with
  | JUndef => "undefined"
  | JNull => "null"
  | JBool true => "true"
  | JBool false => "false"
  | JNum z => Z_to_decimal z
  | JStr s => s
  | JRef _ => "[object Object]"
  end.

(** A default parameter [p = d] applies when the argument is undefined. *)
Definition default_param (v d : jsval) : jsval :=
  match v with JUndef => d | _ => v end.

(** lodash [_.isString] (String wrapper objects are not modelled). *)
Definition isString (v : jsval) : bool :=
  match v with JStr _ => true | _ => false end.

(** lodash [_.isEmpty]: nullish and the other non-objects are empty, a
    string is empty when its length is 0, an object or array when it has
    no own enumerable property (array elements are index properties). *)
Definition isEmpty (h : heap) (v : jsval) : bool :=
  match v with
  | JUndef | JNull | JBool _ | JNum _ => true
  | JStr s => String.eqb s ""
  | JRef l => match nth_error h l with
              | Some o => Nat.eqb (length (o_props o)) 0
              | None => true
              end
  end.

End JS.
Import JS.

Notation "x <- c ;; k" := (match c with Some x => k | None => None end)
  (at level 61, c at next level, right associativity).

(** ** The client *)
Module Confirm.

(** The [common] collaborator handed to the factory (lib/common.js of the
    package), reduced to the members src/confirm.js uses.
    [assertArgumentsSize] is not modelled: every call below receives the
    number of arguments it asserts. *)
Record common_api : Type := {
  makeAPIUrl : string -> string;
  getToken : jsval;
  getSessionTrace : jsval;
  STATUS_BAD_REQUEST : jsval;
  SESSION_TOKEN_HEADER : string
}.

Inductive transport : Type := Fetch | Superagent.

(** A request body: none, an object literal serialised by [send], or a value. *)
Inductive body : Type :=
| NoBody
| BodyLiteral (ps : list (string * jsval))
| BodyValue (v : jsval).

Record request : Type := {
  rq_transport : transport;
  rq_method : string;
  rq_url : string;
  rq_headers : list (string * jsval);
  rq_body : body;
  rq_cache : option string
}.

(** What one call of an operation does, once the transport has answered:
    - [Throws msg]: a synchronous exception, no request is issued;
    - [Answers h args]: the callback is called with [args] and no request is
      issued (fail-fast validation);
    - [Sends rq k]: the request [rq] is issued, and [k] is the callback call
      made from the transport's answer: [Some (h, args)], or [None] when the
      answer handler itself raises a TypeError.
    The callback [cb] is assumed to return normally. *)
Inductive outcome : Type :=
| Throws (msg : string)
| Answers (h : heap) (args : list jsval)
| Sends (rq : request) (k : option (heap * list jsval)).

(** *** The fetch transport *)

Record fetch_response : Type := { fr_status : Z; fr_text : string }.

(** [response.ok]: the status is in the range 200-299 (Fetch standard). *)
Definition fr_ok (r : fetch_response) : bool :=
  Z.leb 200 (fr_status r) && Z.leb (fr_status r) 299.

(** How the promise returned by [fetch] settles. *)
Inductive fetch_settle : Type :=
| Resolved (r : fetch_response)
| Rejected (reason : jsval).

Section Client.

Variable common : common_api.

(** *** signupStart (lines 32-54) *)

Definition signupStart_headers (lang : jsval) : list (string * jsval) :=
  [("x-tidepool-session-token", getToken common);
   ("x-tidepool-trace-session", getSessionTrace common);
   ("x-tidepool-language", lang)].

(** The [.then]/[.catch] continuation. *)
Definition signupStart_then (h : heap) (s : fetch_settle) : heap * list jsval :=
  match s with
  | Resolved response =>
      if fr_ok response then (h, [JNull])
      else let (e, h') := alloc h (new_error ("Invalid HTTP response " ++ Z_to_decimal (fr_status response))) in
           (h', [e])
  | Rejected reason => (h, [reason])
  end.

Definition signupStart (h : heap) (invitedId lang0 : jsval) (s : fetch_settle) : outcome :=
  let lang := default_param lang0 (JStr "en") in
  if isEmpty h invitedId || negb (isString invitedId) then
    Throws "Invalid parameter invitedId"
  else
    let url := makeAPIUrl common ("/confirm/send/signup/" ++ to_js_string invitedId) in
    Sends {| rq_transport := Fetch; rq_method := "POST"; rq_url := url;
             rq_headers := signupStart_headers lang; rq_body := NoBody;
             rq_cache := Some "no-cache" |}
          (Some (signupStart_then h s)).

(** *** signupResend (lines 111-133) and requestPasswordReset (276-298) *)

Definition reset_headers (lang : jsval) : list (string * jsval) :=
  [("x-tidepool-trace-session", getSessionTrace common);
   ("x-tidepool-language", lang)].

(** The shared [.then(async ...)]/[.catch] continuation of both. *)
Definition status_text_then (h : heap) (s : fetch_settle) : heap * list jsval :=
  match s with
  | Resolved response =>
      if fr_ok response then (h, [JNull])
      else let (e, h') := alloc h (new_object [("status", JNum (fr_status response));
                                               ("message", JStr (fr_text response))]) in
           (h', [e])
  | Rejected reason => (h, [reason])
  end.

Definition signupResend (h : heap) (email lang0 : jsval) (s : fetch_settle) : outcome :=
  let lang := default_param lang0 (JStr "en") in
  if isEmpty h email || negb (isString email) then
    Throws "Invalid parameter email"
  else
    let url := makeAPIUrl common ("/confirm/resend/signup/" ++ to_js_string email) in
    Sends {| rq_transport := Fetch; rq_method := "POST"; rq_url := url;
             rq_headers := reset_headers lang; rq_body := NoBody;
             rq_cache := Some "no-cache" |}
          (Some (status_text_then h s)).

Definition requestPasswordReset (h : heap) (email info0 lang0 : jsval) (s : fetch_settle) : outcome :=
  let info := default_param info0 (JBool true) in
  let lang := default_param lang0 (JStr "en") in
  if isEmpty h email || negb (isString email) then
    Throws "Invalid parameter email"
  else
    let url := makeAPIUrl common ("/confirm/send/forgot/" ++ to_js_string email
                                  ++ (if truthy info then "?info=ok" else "")) in
    Sends {| rq_transport := Fetch; rq_method := "POST"; rq_url := url;
             rq_headers := reset_headers lang; rq_body := NoBody;
             rq_cache := Some "no-cache" |}
          (Some (status_text_then h s)).

(** *** The superagent transport

    [.end(function (err, res) {...})]: the transport answers with an error
    value [err] and a response [res], both living in the heap [h]. *)

(** signupConfirm (lines 62-77) *)
Definition signupConfirm_end (h : heap) (err res : jsval) : option (heap * list jsval) :=
  if negb (is_nullish err) then
    r <- getp h err "response" ;;
    reason <- get_chain h r ["body"; "reason"] ;;
    h' <- setp h err "message" (js_or reason (JStr "")) ;;
    Some (h', [err])
  else
    st <- getp h res "status" ;;
    if negb (strict_eq st (JNum 200)) then
      b <- getp h res "body" ;;
      reason <- getp h b "reason" ;;
      let (o, h') := alloc h (new_object [("status", st); ("message", reason)]) in
      Some (h', [o])
    else Some (h, []).

Definition signupConfirm (h : heap) (signupId : jsval) (err res : jsval) : outcome :=
  Sends {| rq_transport := Superagent; rq_method := "PUT";
           rq_url := makeAPIUrl common ("/confirm/accept/signup/" ++ to_js_string signupId);
           rq_headers := []; rq_body := NoBody; rq_cache := None |}
        (signupConfirm_end h err res).

(** custodialSignupConfirm (lines 87-103) *)
Definition custodialSignupConfirm_end (h : heap) (err res : jsval) : option (heap * list jsval) :=
  if negb (is_nullish err) then
    r <- getp h err "response" ;;
    error <- get_chain h r ["body"; "error"] ;;
    h1 <- setp h err "error" (js_or error (JStr "")) ;;
    r' <- getp h1 err "response" ;;
    reason <- get_chain h1 r' ["body"; "reason"] ;;
    h2 <- setp h1 err "message" (js_or reason (JStr "")) ;;
    Some (h2, [err])
  else
    st <- getp h res "status" ;;
    if negb (strict_eq st (JNum 200)) then
      b <- getp h res "body" ;;
      error <- getp h b "error" ;;
      b' <- getp h res "body" ;;
      reason <- getp h b' "reason" ;;
      let (o, h') := alloc h (new_object [("status", st); ("error", error); ("message", reason)]) in
      Some (h', [o])
    else Some (h, []).

Definition custodialSignupConfirm (h : heap) (signupId birthday password : jsval) (err res : jsval) : outcome :=
  Sends {| rq_transport := Superagent; rq_method := "PUT";
           rq_url := makeAPIUrl common ("/confirm/accept/signup/" ++ to_js_string signupId);
           rq_headers := [];
           rq_body := BodyLiteral [("birthday", birthday); ("password", password)];
           rq_cache := None |}
        (custodialSignupConfirm_end h err res).

(** invitesReceived (lines 171-193) *)
Definition invitesReceived_end (h : heap) (err res : jsval) : option (heap * list jsval) :=
  if negb (is_nullish err) then
    st <- getp h err "status" ;;
    if strict_eq st (JNum 404) then
      let (a, h') := alloc h new_array in Some (h', [JNull; a])
    else
      r <- getp h err "response" ;;
      b <- get_chain h r ["body"] ;;
      if truthy b then Some (h, [b])
      else let (a, h') := alloc h new_array in Some (h', [a])
  else
    st <- getp h res "status" ;;
    if strict_eq st (JNum 200) then
      b <- getp h res "body" ;;
      Some (h, [JNull; b])
    else if strict_eq st (JNum 404) then
      let (a, h') := alloc h new_array in Some (h', [JNull; a])
    else
      b <- getp h res "body" ;;
      let (a, h') := alloc h new_array in Some (h', [b; a]).

Definition invitesReceived (h : heap) (inviteeId : jsval) (err res : jsval) : outcome :=
  Sends {| rq_transport := Superagent; rq_method := "GET";
           rq_url := makeAPIUrl common ("/confirm/invitations/" ++ to_js_string inviteeId);
           rq_headers := [(SESSION_TOKEN_HEADER common, getToken common)];
           rq_body := NoBody; rq_cache := None |}
        (invitesReceived_end h err res).

(** confirmPasswordReset (lines 306-326) *)
Definition confirmPasswordReset_end (h : heap) (err res : jsval) : option (heap * list jsval) :=
  if negb (is_nullish err) then
    r <- getp h err "response" ;;
    e <- get_chain h r ["error"] ;;
    h' <- setp h err "message" (js_or e (JStr "")) ;;
    Some (h', [err])
  else
    st <- getp h res "status" ;;
    if negb (strict_eq st (JNum 200)) then
      e <- getp h res "error" ;;
      let (o, h') := alloc h (new_object [("status", st); ("message", e)]) in
      Some (h', [o])
    else Some (h, []).

Definition confirmPasswordReset_msg : string :=
  "payload requires object with `key`, `email`, `password`".

Definition confirmPasswordReset (h : heap) (payload : jsval) (err res : jsval) : outcome :=
  let fail_fast :=
    let (o, h') := alloc h (new_object [("status", STATUS_BAD_REQUEST common);
                                        ("body", JStr confirmPasswordReset_msg)]) in
    Answers h' [o] in
  let send :=
    Sends {| rq_transport := Superagent; rq_method := "PUT";
             rq_url := makeAPIUrl common "/confirm/accept/forgot";
             rq_headers := []; rq_body := BodyValue payload; rq_cache := None |}
          (confirmPasswordReset_end h err res) in
  match getp h payload "key" with
  | None => Throws "TypeError"
  | Some key =>
    if isEmpty h key then fail_fast else
    match getp h payload "email" with
    | None => Throws "TypeError"
    | Some email =>
      if isEmpty h email then fail_fast else
      match getp h payload "password" with
      | None => Throws "TypeError"
      | Some password => if isEmpty h password then fail_fast else send
      end
    end
  end.

End Client.

(** No error reached the callback: it was called with no argument or with
    a nullish first argument. *)
Definition cb_no_error (args : list jsval) : bool :=
  match args with [] => true | e :: _ => is_nullish e end.

Definition handled_ok (k : option (heap * list jsval)) : bool :=
  match k with Some (_, args) => cb_no_error args | None => false end.

End Confirm.
Import Confirm.

(** ** Concrete collaborators and heaps used by the examples *)

Definition demo_common : common_api := {|
  makeAPIUrl := fun p => "https://api.example.org" ++ p;
  getToken := JStr "token-1";
  getSessionTrace := JStr "trace-1";
  STATUS_BAD_REQUEST := JNum 400;
  SESSION_TOKEN_HEADER := "x-tidepool-session-token"
|}.

Definition resp (st : Z) (txt : string) : fetch_settle :=
  Resolved {| fr_status := st; fr_text := txt |}.

(** A payload with an empty [key]: location 0. *)
Definition demo_payload_heap : heap :=
  [new_object [("key", JStr ""); ("email", JStr "a@b.org"); ("password", JStr "pw")]].

(** A superagent response [{status: 500, body: {reason: "x"}, error: "HttpError"}]:
    the response at location 0, its body at location 1. *)
Definition demo_res_heap : heap :=
  [new_object [("status", JNum 500); ("body", JRef 1); ("error", JStr "HttpError")];
   new_object [("reason", JStr "x")]].

(** A superagent error [{status: 500, response: {body: {reason: "boom"}}}]:
    the error at location 0, its response at 1, the body at 2. *)
Definition demo_err_heap : heap :=
  [mkobj "Error" [("status", JNum 500); ("response", JRef 1)];
   new_object [("body", JRef 2)];
   new_object [("reason", JStr "boom")]].

(** A superagent response with status 404 at location 0. *)
Definition demo_404_heap : heap := [new_object [("status", JNum 404); ("body", JStr "Not Found")]].

(** The request an outcome issues, if any. *)
Definition sent_request (o : outcome) : option request :=
  match o with Sends rq _ => Some rq | _ => None end.

(** The normalised error shape [{status: integer|null, message: string, ...}]. *)
Definition error_descriptor (h : heap) (v : jsval) : bool :=
  match getp h v "status", getp h v "message" with
  | Some (JNum _ | JNull), Some (JStr _) => true
  | _, _ => false
  end.



(** ** Sanity checks on concrete inputs *)

Example Z_to_decimal_400 : Z_to_decimal 400 = "400".
Proof. reflexivity. Qed.

Example signupStart_ok_example :
  sent_request (signupStart demo_common [] (JStr "u1") JUndef (resp 204 ""))
  = Some {| rq_transport := Fetch; rq_method := "POST";
            rq_url := "https://api.example.org/confirm/send/signup/u1";
            rq_headers := [("x-tidepool-session-token", JStr "token-1");
                           ("x-tidepool-trace-session", JStr "trace-1");
                           ("x-tidepool-language", JStr "en")];
            rq_body := NoBody; rq_cache := Some "no-cache" |}.
Proof. reflexivity. Qed.

Example signupConfirm_500_example :
  signupConfirm_end demo_res_heap JNull (JRef 0)
  = Some (app demo_res_heap [new_object [("status", JNum 500); ("message", JStr "x")]], [JRef 2]).
Proof. reflexivity. Qed.

(** ** Helper lemmas *)

Lemma append_empty_r (s : string) : s ++ "" = s.
Proof. induction s as [|c s IH]; simpl; [reflexivity | now rewrite IH]. Qed.

Lemma getp_alloc (h : heap) (o : jsobj) (k : string) :
  getp (app h [o]) (JRef (length h)) k
  = Some (match lookup_prop (o_props o) k with Some x => x | None => JUndef end).
Proof. unfold getp. rewrite nth_error_app2, Nat.sub_diag by lia. reflexivity. Qed.

Lemma is_nullish_true (v : jsval) : is_nullish v = true -> v = JUndef \/ v = JNull.
Proof. destruct v; simpl; intuition discriminate. Qed.

Lemma strict_eq_true (x y : jsval) : strict_eq x y = true <-> x = y.
Proof. unfold strict_eq. destruct (jsval_eq_dec x y); intuition discriminate. Qed.

Lemma strict_eq_false (x y : jsval) : strict_eq x y = false <-> x <> y.
Proof. unfold strict_eq. destruct (jsval_eq_dec x y); intuition discriminate. Qed.

(** ** C3: a bad identifier is rejected synchronously *)

(** C3. For signupStart, signupResend and requestPasswordReset, an identifier
    or email that is the empty string or not a string makes the call throw
    synchronously: the outcome is [Throws], so no request is issued. *)
Theorem bad_identifier_throws (common : common_api) (h : heap) (id lang info : jsval)
    (s : fetch_settle) (Hbad : id = JStr "" \/ isString id = false) :
  signupStart common h id lang s = Throws "Invalid parameter invitedId" /\
  signupResend common h id lang s = Throws "Invalid parameter email" /\
  requestPasswordReset common h id info lang s = Throws "Invalid parameter email".
Proof.
  assert (Hc : isEmpty h id || negb (isString id) = true).
  { destruct Hbad as [-> | Hs]; [reflexivity | rewrite Hs, orb_true_r; reflexivity]. }
  unfold signupStart, signupResend, requestPasswordReset; rewrite Hc; auto.
Qed.

Lemma bad_identifier_throws_witness :
  (JNum 42 = JStr "" \/ isString (JNum 42) = false) /\
  signupStart demo_common [] (JNum 42) JUndef (resp 204 "") = Throws "Invalid parameter invitedId" /\
  signupResend demo_common [] (JNum 42) JUndef (resp 204 "") = Throws "Invalid parameter email" /\
  requestPasswordReset demo_common [] (JNum 42) JUndef JUndef (resp 204 "") = Throws "Invalid parameter email".
Proof.
  split; [right; reflexivity |].
  apply (bad_identifier_throws demo_common [] (JNum 42) JUndef JUndef (resp 204 "")).
  right; reflexivity.
Defined.

(** ** C4: confirmPasswordReset fails fast on an empty field *)

(** C4. When the payload's [key], [email] or [password] is empty (lodash
    [_.isEmpty]), confirmPasswordReset calls back with an error whose
    [status] is [common.STATUS_BAD_REQUEST] and issues no request. *)
Theorem confirmPasswordReset_fail_fast (common : common_api) (h : heap) (payload err res : jsval)
    (key email password : jsval)
    (Hk : getp h payload "key" = Some key)
    (He : getp h payload "email" = Some email)
    (Hp : getp h payload "password" = Some password)
    (Hempty : isEmpty h key || isEmpty h email || isEmpty h password = true) :
  exists h' o, confirmPasswordReset common h payload err res = Answers h' [o] /\
               getp h' o "status" = Some (STATUS_BAD_REQUEST common).
Proof.
  unfold confirmPasswordReset, alloc; rewrite Hk, He, Hp.
  exists (app h [new_object [("status", STATUS_BAD_REQUEST common);
                          ("body", JStr confirmPasswordReset_msg)]]), (JRef (length h)).
  split; [| rewrite getp_alloc; reflexivity].
  destruct (isEmpty h key); [reflexivity |].
  destruct (isEmpty h email); [reflexivity |].
  destruct (isEmpty h password); [reflexivity | discriminate].
Qed.

Lemma confirmPasswordReset_fail_fast_witness :
  getp demo_payload_heap (JRef 0) "key" = Some (JStr "") /\
  getp demo_payload_heap (JRef 0) "email" = Some (JStr "a@b.org") /\
  getp demo_payload_heap (JRef 0) "password" = Some (JStr "pw") /\
  isEmpty demo_payload_heap (JStr "") || isEmpty demo_payload_heap (JStr "a@b.org")
    || isEmpty demo_payload_heap (JStr "pw") = true /\
  exists h' o, confirmPasswordReset demo_common demo_payload_heap (JRef 0) JNull JNull = Answers h' [o] /\
               getp h' o "status" = Some (STATUS_BAD_REQUEST demo_common).
Proof.
  split; [reflexivity |]. split; [reflexivity |]. split; [reflexivity |].
  split; [reflexivity |].
  apply (confirmPasswordReset_fail_fast demo_common demo_payload_heap (JRef 0) JNull JNull
           (JStr "") (JStr "a@b.org") (JStr "pw")); reflexivity.
Defined.

(** ** C10: the [info] flag of requestPasswordReset *)

Lemma valid_identifier (h : heap) (e : string) (He : e <> "") :
  isEmpty h (JStr e) || negb (isString (JStr e)) = false.
Proof. simpl. apply String.eqb_neq in He. now rewrite He. Qed.

(** C10. requestPasswordReset with [info] true (or left undefined, the
    default) posts to [/confirm/send/forgot/<email>?info=ok], with [info]
    false to [/confirm/send/forgot/<email>]; the three calls issue the same
    request apart from the URL and make the same callback call. *)
Theorem requestPasswordReset_info_url (common : common_api) (h : heap) (e : string)
    (lang : jsval) (s : fetch_settle) (He : e <> "") :
  exists hdrs k,
    let mk url := {| rq_transport := Fetch; rq_method := "POST"; rq_url := url;
                     rq_headers := hdrs; rq_body := NoBody; rq_cache := Some "no-cache" |} in
    requestPasswordReset common h (JStr e) (JBool true) lang s
      = Sends (mk (makeAPIUrl common ("/confirm/send/forgot/" ++ e ++ "?info=ok"))) k /\
    requestPasswordReset common h (JStr e) JUndef lang s
      = Sends (mk (makeAPIUrl common ("/confirm/send/forgot/" ++ e ++ "?info=ok"))) k /\
    requestPasswordReset common h (JStr e) (JBool false) lang s
      = Sends (mk (makeAPIUrl common ("/confirm/send/forgot/" ++ e))) k.
Proof.
  exists (reset_headers common (default_param lang (JStr "en"))), (Some (status_text_then h s)).
  unfold requestPasswordReset. rewrite (valid_identifier h e He).
  split; [reflexivity | split; [reflexivity |]].
  simpl truthy. unfold to_js_string. rewrite append_empty_r. reflexivity.
Qed.

Lemma requestPasswordReset_info_url_witness :
  "a@b.org" <> "" /\
  exists hdrs k,
    let mk url := {| rq_transport := Fetch; rq_method := "POST"; rq_url := url;
                     rq_headers := hdrs; rq_body := NoBody; rq_cache := Some "no-cache" |} in
    requestPasswordReset demo_common [] (JStr "a@b.org") (JBool true) JUndef (resp 200 "")
      = Sends (mk (makeAPIUrl demo_common ("/confirm/send/forgot/" ++ "a@b.org" ++ "?info=ok"))) k /\
    requestPasswordReset demo_common [] (JStr "a@b.org") JUndef JUndef (resp 200 "")
      = Sends (mk (makeAPIUrl demo_common ("/confirm/send/forgot/" ++ "a@b.org" ++ "?info=ok"))) k /\
    requestPasswordReset demo_common [] (JStr "a@b.org") (JBool false) JUndef (resp 200 "")
      = Sends (mk (makeAPIUrl demo_common ("/confirm/send/forgot/" ++ "a@b.org"))) k.
Proof.
  split; [discriminate |].
  apply (requestPasswordReset_info_url demo_common [] "a@b.org" JUndef (resp 200 "")).
  discriminate.
Defined.

(** ** C7: the signupStart("user123", "fr", cb) scenario *)

(** C7 (counterexample). On a 204 answer the callback is not called with no
    arguments: it receives [null]. *)
Lemma signupStart_204_passes_null :
  ~ (exists rq h', signupStart demo_common [] (JStr "user123") (JStr "fr") (resp 204 "")
                   = Sends rq (Some (h', []))).
Proof. intros [rq [h' H]]. vm_compute in H. congruence. Qed.

(** C7 (amended). signupStart("user123", "fr", cb) posts to
    [makeAPIUrl("/confirm/send/signup/user123")] with the header
    [x-tidepool-language: fr]; on a 204 answer cb receives [null] as its single
    argument; on a 400 answer it receives a new Error whose message is
    "Invalid HTTP response 400". *)
Theorem signupStart_user123_scenario (common : common_api) (h : heap) :
  exists rq,
    signupStart common h (JStr "user123") (JStr "fr") (resp 204 "") = Sends rq (Some (h, [JNull])) /\
    rq_method rq = "POST" /\
    rq_url rq = makeAPIUrl common "/confirm/send/signup/user123" /\
    lookup_prop (rq_headers rq) "x-tidepool-language" = Some (JStr "fr") /\
    signupStart common h (JStr "user123") (JStr "fr") (resp 400 "")
      = Sends rq (Some (app h [new_error "Invalid HTTP response 400"], [JRef (length h)])) /\
    getp (app h [new_error "Invalid HTTP response 400"]) (JRef (length h)) "message"
      = Some (JStr "Invalid HTTP response 400").
Proof.
  eexists. split; [reflexivity |].
  split; [reflexivity |]. split; [reflexivity |]. split; [reflexivity |].
  split; [reflexivity |]. rewrite getp_alloc. reflexivity.
Qed.

(** ** C8: the custom headers of the fetch-style operations *)

(** C8 (counterexample). signupResend sends no [x-tidepool-session-token]. *)
Lemma signupResend_sends_no_session_token :
  ~ (exists rq k, signupResend demo_common [] (JStr "a@b.org") (JStr "fr") (resp 200 "") = Sends rq k /\
                  lookup_prop (rq_headers rq) "x-tidepool-session-token" = Some (getToken demo_common)).
Proof. intros [rq [k [H1 H2]]]. injection H1 as <- _. vm_compute in H2. discriminate. Qed.

(** C8 (amended). signupStart sends the headers [x-tidepool-session-token]
    (the session token), [x-tidepool-trace-session] (the trace id) and
    [x-tidepool-language] (the language, "en" by default); signupResend and
    requestPasswordReset send only the last two. *)
Theorem fetch_operation_headers (common : common_api) (h : heap) (e : string)
    (lang info : jsval) (s : fetch_settle) (He : e <> "") :
  let lang' := default_param lang (JStr "en") in
  (exists rq k, signupStart common h (JStr e) lang s = Sends rq k /\
     rq_headers rq = [("x-tidepool-session-token", getToken common);
                      ("x-tidepool-trace-session", getSessionTrace common);
                      ("x-tidepool-language", lang')]) /\
  (exists rq k, signupResend common h (JStr e) lang s = Sends rq k /\
     rq_headers rq = [("x-tidepool-trace-session", getSessionTrace common);
                      ("x-tidepool-language", lang')]) /\
  (exists rq k, requestPasswordReset common h (JStr e) info lang s = Sends rq k /\
     rq_headers rq = [("x-tidepool-trace-session", getSessionTrace common);
                      ("x-tidepool-language", lang')]).
Proof.
  intros lang'.
  unfold signupStart, signupResend, requestPasswordReset.
  rewrite (valid_identifier h e He).
  split; [| split]; (eexists; eexists; split; [reflexivity | reflexivity]).
Qed.

Lemma fetch_operation_headers_witness :
  "a@b.org" <> "" /\
  let lang' := default_param (JStr "fr") (JStr "en") in
  (exists rq k, signupStart demo_common [] (JStr "a@b.org") (JStr "fr") (resp 200 "") = Sends rq k /\
     rq_headers rq = [("x-tidepool-session-token", getToken demo_common);
                      ("x-tidepool-trace-session", getSessionTrace demo_common);
                      ("x-tidepool-language", lang')]) /\
  (exists rq k, signupResend demo_common [] (JStr "a@b.org") (JStr "fr") (resp 200 "") = Sends rq k /\
     rq_headers rq = [("x-tidepool-trace-session", getSessionTrace demo_common);
                      ("x-tidepool-language", lang')]) /\
  (exists rq k, requestPasswordReset demo_common [] (JStr "a@b.org") JUndef (JStr "fr") (resp 200 "")
                = Sends rq k /\
     rq_headers rq = [("x-tidepool-trace-session", getSessionTrace demo_common);
                      ("x-tidepool-language", lang')]).
Proof.
  split; [discriminate |].
  apply (fetch_operation_headers demo_common [] "a@b.org" (JStr "fr") JUndef (resp 200 "")).
  discriminate.
Defined.

(** ** Superagent handlers: non-200 answers without a transport error *)

Lemma signupConfirm_end_non200 (h : heap) (err res st b reason : jsval)
    (Herr : is_nullish err = true) (Hst : getp h res "status" = Some st)
    (Hn200 : st <> JNum 200) (Hb : getp h res "body" = Some b)
    (Hr : getp h b "reason" = Some reason) :
  signupConfirm_end h err res
  = Some (app h [new_object [("status", st); ("message", reason)]], [JRef (length h)]).
Proof.
  unfold signupConfirm_end. rewrite Herr. cbn [negb].
  rewrite Hst, (proj2 (strict_eq_false _ _) Hn200). cbn [negb].
  rewrite Hb, Hr. reflexivity.
Qed.

Lemma custodialSignupConfirm_end_non200 (h : heap) (err res st b reason error : jsval)
    (Herr : is_nullish err = true) (Hst : getp h res "status" = Some st)
    (Hn200 : st <> JNum 200) (Hb : getp h res "body" = Some b)
    (Hr : getp h b "reason" = Some reason) (He : getp h b "error" = Some error) :
  custodialSignupConfirm_end h err res
  = Some (app h [new_object [("status", st); ("error", error); ("message", reason)]], [JRef (length h)]).
Proof.
  unfold custodialSignupConfirm_end. rewrite Herr. cbn [negb].
  rewrite Hst, (proj2 (strict_eq_false _ _) Hn200). cbn [negb].
  rewrite Hb, He, Hr. reflexivity.
Qed.

Lemma confirmPasswordReset_end_non200 (h : heap) (err res st e : jsval)
    (Herr : is_nullish err = true) (Hst : getp h res "status" = Some st)
    (Hn200 : st <> JNum 200) (He : getp h res "error" = Some e) :
  confirmPasswordReset_end h err res
  = Some (app h [new_object [("status", st); ("message", e)]], [JRef (length h)]).
Proof.
  unfold confirmPasswordReset_end. rewrite Herr. cbn [negb].
  rewrite Hst, (proj2 (strict_eq_false _ _) Hn200). cbn [negb].
  rewrite He. reflexivity.
Qed.

(** ** C1: non-200 answers of the mutation operations *)

(** C1 (counterexample). confirmPasswordReset answered with status 500 and
    body [{reason: "x"}] does not report "x": its message is the response's
    [error] field ("HttpError"). *)
Lemma confirmPasswordReset_message_is_not_reason :
  getp demo_res_heap (JRef 1) "reason" = Some (JStr "x") /\
  ~ (exists h' o, confirmPasswordReset_end demo_res_heap JNull (JRef 0) = Some (h', [o]) /\
                  getp h' o "message" = Some (JStr "x")).
Proof.
  split; [reflexivity |].
  intros [h' [o [H1 H2]]]. vm_compute in H1. injection H1 as <- <-.
  vm_compute in H2. discriminate.
Qed.

(** C1 (amended). With no transport error and a status other than 200,
    signupConfirm and custodialSignupConfirm call back with a new object
    whose [status] is the response status and whose [message] is the body's
    [reason] when present (custodialSignupConfirm also carries the body's
    [error]); confirmPasswordReset's object carries the status and, as
    [message], the response's [error] field. *)
Theorem mutation_non200_descriptor (h : heap) (err res st b : jsval)
    (Herr : is_nullish err = true) (Hst : getp h res "status" = Some st)
    (Hn200 : st <> JNum 200) (Hb : getp h res "body" = Some b) :
  (forall reason, getp h b "reason" = Some reason -> reason <> JUndef ->
     exists h' o, signupConfirm_end h err res = Some (h', [o]) /\
                  getp h' o "status" = Some st /\ getp h' o "message" = Some reason) /\
  (forall reason error, getp h b "reason" = Some reason -> reason <> JUndef ->
     getp h b "error" = Some error ->
     exists h' o, custodialSignupConfirm_end h err res = Some (h', [o]) /\
                  getp h' o "status" = Some st /\ getp h' o "message" = Some reason /\
                  getp h' o "error" = Some error) /\
  (forall e, getp h res "error" = Some e ->
     exists h' o, confirmPasswordReset_end h err res = Some (h', [o]) /\
                  getp h' o "status" = Some st /\ getp h' o "message" = Some e).
Proof.
  split; [| split].
  - intros reason Hr _.
    rewrite (signupConfirm_end_non200 h err res st b reason Herr Hst Hn200 Hb Hr).
    do 2 eexists. split; [reflexivity |]. rewrite !getp_alloc. split; reflexivity.
  - intros reason error Hr _ He.
    rewrite (custodialSignupConfirm_end_non200 h err res st b reason error Herr Hst Hn200 Hb Hr He).
    do 2 eexists. split; [reflexivity |]. rewrite !getp_alloc. repeat split.
  - intros e He.
    rewrite (confirmPasswordReset_end_non200 h err res st e Herr Hst Hn200 He).
    do 2 eexists. split; [reflexivity |]. rewrite !getp_alloc. split; reflexivity.
Qed.

Lemma mutation_non200_descriptor_witness :
  is_nullish JNull = true /\ getp demo_res_heap (JRef 0) "status" = Some (JNum 500) /\
  JNum 500 <> JNum 200 /\ getp demo_res_heap (JRef 0) "body" = Some (JRef 1) /\
  (forall reason, getp demo_res_heap (JRef 1) "reason" = Some reason -> reason <> JUndef ->
     exists h' o, signupConfirm_end demo_res_heap JNull (JRef 0) = Some (h', [o]) /\
                  getp h' o "status" = Some (JNum 500) /\ getp h' o "message" = Some reason) /\
  (forall reason error, getp demo_res_heap (JRef 1) "reason" = Some reason -> reason <> JUndef ->
     getp demo_res_heap (JRef 1) "error" = Some error ->
     exists h' o, custodialSignupConfirm_end demo_res_heap JNull (JRef 0) = Some (h', [o]) /\
                  getp h' o "status" = Some (JNum 500) /\ getp h' o "message" = Some reason /\
                  getp h' o "error" = Some error) /\
  (forall e, getp demo_res_heap (JRef 0) "error" = Some e ->
     exists h' o, confirmPasswordReset_end demo_res_heap JNull (JRef 0) = Some (h', [o]) /\
                  getp h' o "status" = Some (JNum 500) /\ getp h' o "message" = Some e).
Proof.
  split; [reflexivity |]. split; [reflexivity |]. split; [discriminate |].
  split; [reflexivity |].
  apply (mutation_non200_descriptor demo_res_heap JNull (JRef 0) (JNum 500) (JRef 1));
    first [reflexivity | discriminate].
Defined.

(** ** Fetch-style operations: answers that are not ok *)

Lemma signupStart_not_ok (common : common_api) (h : heap) (e : string) (lang : jsval)
    (r : fetch_response) (He : e <> "") (Hok : fr_ok r = false) :
  exists rq, signupStart common h (JStr e) lang (Resolved r)
    = Sends rq (Some (app h [new_error ("Invalid HTTP response " ++ Z_to_decimal (fr_status r))],
                      [JRef (length h)])).
Proof.
  unfold signupStart. rewrite (valid_identifier h e He). eexists. f_equal.
  unfold signupStart_then. rewrite Hok. reflexivity.
Qed.

Lemma signupResend_not_ok (common : common_api) (h : heap) (e : string) (lang : jsval)
    (r : fetch_response) (He : e <> "") (Hok : fr_ok r = false) :
  exists rq, signupResend common h (JStr e) lang (Resolved r)
    = Sends rq (Some (app h [new_object [("status", JNum (fr_status r)); ("message", JStr (fr_text r))]],
                      [JRef (length h)])).
Proof.
  unfold signupResend. rewrite (valid_identifier h e He). eexists. f_equal.
  unfold status_text_then. rewrite Hok. reflexivity.
Qed.

Lemma requestPasswordReset_not_ok (common : common_api) (h : heap) (e : string) (info lang : jsval)
    (r : fetch_response) (He : e <> "") (Hok : fr_ok r = false) :
  exists rq, requestPasswordReset common h (JStr e) info lang (Resolved r)
    = Sends rq (Some (app h [new_object [("status", JNum (fr_status r)); ("message", JStr (fr_text r))]],
                      [JRef (length h)])).
Proof.
  unfold requestPasswordReset. rewrite (valid_identifier h e He). eexists. f_equal.
  unfold status_text_then. rewrite Hok. reflexivity.
Qed.

Lemma confirmPasswordReset_fail_fast_value (common : common_api) (h : heap) (payload err res : jsval)
    (key email password : jsval)
    (Hk : getp h payload "key" = Some key)
    (He : getp h payload "email" = Some email)
    (Hp : getp h payload "password" = Some password)
    (Hempty : isEmpty h key || isEmpty h email || isEmpty h password = true) :
  confirmPasswordReset common h payload err res
  = Answers (app h [new_object [("status", STATUS_BAD_REQUEST common);
                                ("body", JStr confirmPasswordReset_msg)]]) [JRef (length h)].
Proof.
  unfold confirmPasswordReset, alloc; rewrite Hk, He, Hp.
  destruct (isEmpty h key); [reflexivity |].
  destruct (isEmpty h email); [reflexivity |].
  destruct (isEmpty h password); [reflexivity | discriminate].
Qed.

(** ** C9: the shape of the error values *)

(** C9 (counterexample). The fail-fast error of confirmPasswordReset has no
    string [message] (it carries [body] instead), so it is not of the
    [{status, message}] shape. *)
Lemma confirmPasswordReset_fail_fast_not_descriptor :
  exists h' o, confirmPasswordReset demo_common demo_payload_heap (JRef 0) JNull JNull = Answers h' [o] /\
               error_descriptor h' o = false.
Proof. do 2 eexists. split; [reflexivity | reflexivity]. Qed.

(** C9 (amended). The error values delivered on application-level failures
    have per-operation shapes:
    - signupResend and requestPasswordReset: [{status, message}] with the
      HTTP status and the response text;
    - signupStart: an Error whose message is "Invalid HTTP response <status>"
      and which has no [status] field;
    - confirmPasswordReset's fail-fast check: [{status: STATUS_BAD_REQUEST,
      body: <fixed text>}], with no [message] field;
    - non-200 answers of signupConfirm, custodialSignupConfirm and
      confirmPasswordReset: an object whose [status] is the response status
      and whose [message] is the body's [reason] (resp. the response's [error]). *)
Theorem error_value_shapes (common : common_api) (h : heap) (e : string) (lang info : jsval)
    (r : fetch_response) (He : e <> "") (Hok : fr_ok r = false) :
  (exists rq h' o, signupResend common h (JStr e) lang (Resolved r) = Sends rq (Some (h', [o])) /\
     getp h' o "status" = Some (JNum (fr_status r)) /\ getp h' o "message" = Some (JStr (fr_text r))) /\
  (exists rq h' o, requestPasswordReset common h (JStr e) info lang (Resolved r) = Sends rq (Some (h', [o])) /\
     getp h' o "status" = Some (JNum (fr_status r)) /\ getp h' o "message" = Some (JStr (fr_text r))) /\
  (exists rq h' o, signupStart common h (JStr e) lang (Resolved r) = Sends rq (Some (h', [o])) /\
     getp h' o "status" = Some JUndef /\
     getp h' o "message" = Some (JStr ("Invalid HTTP response " ++ Z_to_decimal (fr_status r)))) /\
  (forall payload err res key email password,
     getp h payload "key" = Some key -> getp h payload "email" = Some email ->
     getp h payload "password" = Some password ->
     isEmpty h key || isEmpty h email || isEmpty h password = true ->
     exists h' o, confirmPasswordReset common h payload err res = Answers h' [o] /\
       getp h' o "status" = Some (STATUS_BAD_REQUEST common) /\
       getp h' o "body" = Some (JStr confirmPasswordReset_msg) /\ getp h' o "message" = Some JUndef) /\
  (forall err res st b reason error,
     is_nullish err = true -> getp h res "status" = Some st -> st <> JNum 200 ->
     getp h res "body" = Some b -> getp h b "reason" = Some reason -> getp h b "error" = Some error ->
     (exists h' o, signupConfirm_end h err res = Some (h', [o]) /\
        getp h' o "status" = Some st /\ getp h' o "message" = Some reason) /\
     (exists h' o, custodialSignupConfirm_end h err res = Some (h', [o]) /\
        getp h' o "status" = Some st /\ getp h' o "message" = Some reason)) /\
  (forall err res st e',
     is_nullish err = true -> getp h res "status" = Some st -> st <> JNum 200 ->
     getp h res "error" = Some e' ->
     exists h' o, confirmPasswordReset_end h err res = Some (h', [o]) /\
        getp h' o "status" = Some st /\ getp h' o "message" = Some e').
Proof.
  split; [| split; [| split; [| split; [| split]]]].
  - destruct (signupResend_not_ok common h e lang r He Hok) as [rq Hrq].
    exists rq; do 2 eexists. split; [exact Hrq |]. rewrite !getp_alloc. split; reflexivity.
  - destruct (requestPasswordReset_not_ok common h e info lang r He Hok) as [rq Hrq].
    exists rq; do 2 eexists. split; [exact Hrq |]. rewrite !getp_alloc. split; reflexivity.
  - destruct (signupStart_not_ok common h e lang r He Hok) as [rq Hrq].
    exists rq; do 2 eexists. split; [exact Hrq |]. rewrite !getp_alloc. split; reflexivity.
  - intros payload err res key email password Hk He' Hp Hempty.
    rewrite (confirmPasswordReset_fail_fast_value common h payload err res key email password Hk He' Hp Hempty).
    do 2 eexists. split; [reflexivity |]. rewrite !getp_alloc. repeat split.
  - intros err res st b reason error Herr Hst Hn Hb Hr Herror. split.
    + rewrite (signupConfirm_end_non200 h err res st b reason Herr Hst Hn Hb Hr).
      do 2 eexists. split; [reflexivity |]. rewrite !getp_alloc. split; reflexivity.
    + rewrite (custodialSignupConfirm_end_non200 h err res st b reason error Herr Hst Hn Hb Hr Herror).
      do 2 eexists. split; [reflexivity |]. rewrite !getp_alloc. split; reflexivity.
  - intros err res st e' Herr Hst Hn He'.
    rewrite (confirmPasswordReset_end_non200 h err res st e' Herr Hst Hn He').
    do 2 eexists. split; [reflexivity |]. rewrite !getp_alloc. split; reflexivity.
Qed.

Lemma error_value_shapes_witness :
  "a@b.org" <> "" /\ fr_ok {| fr_status := 500; fr_text := "oops" |} = false /\
  let h := @nil jsobj in
  let r := {| fr_status := 500; fr_text := "oops" |} in
  (exists rq h' o, signupResend demo_common h (JStr "a@b.org") JUndef (Resolved r) = Sends rq (Some (h', [o])) /\
     getp h' o "status" = Some (JNum (fr_status r)) /\ getp h' o "message" = Some (JStr (fr_text r))) /\
  (exists rq h' o, requestPasswordReset demo_common h (JStr "a@b.org") JUndef JUndef (Resolved r)
                   = Sends rq (Some (h', [o])) /\
     getp h' o "status" = Some (JNum (fr_status r)) /\ getp h' o "message" = Some (JStr (fr_text r))) /\
  (exists rq h' o, signupStart demo_common h (JStr "a@b.org") JUndef (Resolved r) = Sends rq (Some (h', [o])) /\
     getp h' o "status" = Some JUndef /\
     getp h' o "message" = Some (JStr ("Invalid HTTP response " ++ Z_to_decimal (fr_status r)))) /\
  (forall payload err res key email password,
     getp h payload "key" = Some key -> getp h payload "email" = Some email ->
     getp h payload "password" = Some password ->
     isEmpty h key || isEmpty h email || isEmpty h password = true ->
     exists h' o, confirmPasswordReset demo_common h payload err res = Answers h' [o] /\
       getp h' o "status" = Some (STATUS_BAD_REQUEST demo_common) /\
       getp h' o "body" = Some (JStr confirmPasswordReset_msg) /\ getp h' o "message" = Some JUndef) /\
  (forall err res st b reason error,
     is_nullish err = true -> getp h res "status" = Some st -> st <> JNum 200 ->
     getp h res "body" = Some b -> getp h b "reason" = Some reason -> getp h b "error" = Some error ->
     (exists h' o, signupConfirm_end h err res = Some (h', [o]) /\
        getp h' o "status" = Some st /\ getp h' o "message" = Some reason) /\
     (exists h' o, custodialSignupConfirm_end h err res = Some (h', [o]) /\
        getp h' o "status" = Some st /\ getp h' o "message" = Some reason)) /\
  (forall err res st e',
     is_nullish err = true -> getp h res "status" = Some st -> st <> JNum 200 ->
     getp h res "error" = Some e' ->
     exists h' o, confirmPasswordReset_end h err res = Some (h', [o]) /\
        getp h' o "status" = Some st /\ getp h' o "message" = Some e').
Proof.
  split; [discriminate |]. split; [reflexivity |].
  apply (error_value_shapes demo_common [] "a@b.org" JUndef JUndef
           {| fr_status := 500; fr_text := "oops" |}); [discriminate | reflexivity].
Defined.

(** ** Which answers count as success *)

Ltac close_opts :=
  repeat match goal with
         | |- context [match ?x with Some _ => _ | None => _ end] => destruct x
         end; simpl; try discriminate.

Lemma getp_same_base (h : heap) (v : jsval) (k k' : string) (x : jsval) :
  getp h v k = Some x -> exists y, getp h v k' = Some y.
Proof.
  destruct v; simpl; try discriminate; eauto.
  destruct (nth_error h l); [eauto | discriminate].
Qed.

Lemma fr_ok_spec (r : fetch_response) : fr_ok r = true <-> (200 <= fr_status r <= 299)%Z.
Proof. unfold fr_ok. rewrite andb_true_iff, !Z.leb_le. reflexivity. Qed.

(** A mutation handler reports success exactly on status 200. *)
Ltac exact_200_tac Herr :=
  rewrite Herr; cbn [negb];
  let st := fresh "st" in
  let E := fresh "E" in
  match goal with
  | |- context [getp ?h ?res "status"] =>
      destruct (getp h res "status") as [st|]; [| simpl; split; discriminate]
  end;
  destruct (strict_eq st (JNum 200)) eqn:E; cbn [negb];
  [ apply strict_eq_true in E; subst st; simpl; split; reflexivity
  | apply strict_eq_false in E; split;
    [ close_opts | let Heq := fresh "Heq" in intro Heq; injection Heq; intro; subst; contradiction ] ].

Lemma signupConfirm_end_ok_iff (h : heap) (err res : jsval) (Herr : is_nullish err = true) :
  handled_ok (signupConfirm_end h err res) = true <-> getp h res "status" = Some (JNum 200).
Proof. unfold signupConfirm_end. exact_200_tac Herr. Qed.

Lemma custodialSignupConfirm_end_ok_iff (h : heap) (err res : jsval) (Herr : is_nullish err = true) :
  handled_ok (custodialSignupConfirm_end h err res) = true <-> getp h res "status" = Some (JNum 200).
Proof. unfold custodialSignupConfirm_end. exact_200_tac Herr. Qed.

Lemma confirmPasswordReset_end_ok_iff (h : heap) (err res : jsval) (Herr : is_nullish err = true) :
  handled_ok (confirmPasswordReset_end h err res) = true <-> getp h res "status" = Some (JNum 200).
Proof. unfold confirmPasswordReset_end. exact_200_tac Herr. Qed.

Lemma invitesReceived_end_200_404 (h : heap) (err res st : jsval) (Herr : is_nullish err = true)
    (Hst : getp h res "status" = Some st) (H : st = JNum 200 \/ st = JNum 404) :
  handled_ok (invitesReceived_end h err res) = true.
Proof.
  destruct (getp_same_base h res "status" "body" st Hst) as [b Hb].
  unfold invitesReceived_end. rewrite Herr. cbn [negb]. rewrite Hst.
  destruct H as [-> | ->].
  - rewrite (proj2 (strict_eq_true (JNum 200) (JNum 200)) eq_refl), Hb. reflexivity.
  - rewrite (proj2 (strict_eq_false (JNum 404) (JNum 200)) ltac:(discriminate)).
    rewrite (proj2 (strict_eq_true (JNum 404) (JNum 404)) eq_refl). reflexivity.
Qed.

Lemma invitesReceived_end_other (h : heap) (err res st b : jsval) (Herr : is_nullish err = true)
    (Hst : getp h res "status" = Some st) (H200 : st <> JNum 200) (H404 : st <> JNum 404)
    (Hb : getp h res "body" = Some b) (Hbn : is_nullish b = false) :
  handled_ok (invitesReceived_end h err res) = false.
Proof.
  unfold invitesReceived_end. rewrite Herr. cbn [negb]. rewrite Hst.
  rewrite (proj2 (strict_eq_false _ _) H200), (proj2 (strict_eq_false _ _) H404), Hb.
  simpl. exact Hbn.
Qed.

Lemma signupStart_resolved_ok_iff (common : common_api) (h : heap) (e : string) (lang : jsval)
    (r : fetch_response) (He : e <> "") :
  exists rq h' args, signupStart common h (JStr e) lang (Resolved r) = Sends rq (Some (h', args)) /\
    (cb_no_error args = true <-> (200 <= fr_status r <= 299)%Z).
Proof.
  unfold signupStart. rewrite (valid_identifier h e He). unfold signupStart_then.
  destruct (fr_ok r) eqn:E; do 3 eexists; (split; [reflexivity |]);
    rewrite <- fr_ok_spec, E; simpl; split; congruence.
Qed.

Lemma signupResend_resolved_ok_iff (common : common_api) (h : heap) (e : string) (lang : jsval)
    (r : fetch_response) (He : e <> "") :
  exists rq h' args, signupResend common h (JStr e) lang (Resolved r) = Sends rq (Some (h', args)) /\
    (cb_no_error args = true <-> (200 <= fr_status r <= 299)%Z).
Proof.
  unfold signupResend. rewrite (valid_identifier h e He). unfold status_text_then.
  destruct (fr_ok r) eqn:E; do 3 eexists; (split; [reflexivity |]);
    rewrite <- fr_ok_spec, E; simpl; split; congruence.
Qed.

Lemma requestPasswordReset_resolved_ok_iff (common : common_api) (h : heap) (e : string)
    (info lang : jsval) (r : fetch_response) (He : e <> "") :
  exists rq h' args, requestPasswordReset common h (JStr e) info lang (Resolved r) = Sends rq (Some (h', args)) /\
    (cb_no_error args = true <-> (200 <= fr_status r <= 299)%Z).
Proof.
  unfold requestPasswordReset. rewrite (valid_identifier h e He). unfold status_text_then.
  destruct (fr_ok r) eqn:E; do 3 eexists; (split; [reflexivity |]);
    rewrite <- fr_ok_spec, E; simpl; split; congruence.
Qed.

(** ** C6: success predicates of the two transports *)

(** C6 (counterexample). invitesReceived, a superagent-style call, reports no
    error on a 404 answer: it calls back with [(null, [])]. *)
Lemma invitesReceived_404_is_no_error :
  getp demo_404_heap (JRef 0) "status" = Some (JNum 404) /\
  invitesReceived_end demo_404_heap JNull (JRef 0) = Some (app demo_404_heap [new_array], [JNull; JRef 1]) /\
  handled_ok (invitesReceived_end demo_404_heap JNull (JRef 0)) = true.
Proof. repeat split. Qed.

(** C6 (amended). Without a transport error, signupConfirm,
    custodialSignupConfirm and confirmPasswordReset report no error exactly
    when the status is 200; invitesReceived reports no error for 200 and 404
    and, for any other status, passes the response body as the error; the
    fetch-style signupStart, signupResend and requestPasswordReset report no
    error exactly when [response.ok], i.e. the status is in 200-299. *)
Theorem success_predicates :
  (forall h err res, is_nullish err = true ->
     (handled_ok (signupConfirm_end h err res) = true <-> getp h res "status" = Some (JNum 200)) /\
     (handled_ok (custodialSignupConfirm_end h err res) = true <-> getp h res "status" = Some (JNum 200)) /\
     (handled_ok (confirmPasswordReset_end h err res) = true <-> getp h res "status" = Some (JNum 200))) /\
  (forall h err res st, is_nullish err = true -> getp h res "status" = Some st ->
     (st = JNum 200 \/ st = JNum 404 -> handled_ok (invitesReceived_end h err res) = true) /\
     (forall b, st <> JNum 200 -> st <> JNum 404 -> getp h res "body" = Some b -> is_nullish b = false ->
        handled_ok (invitesReceived_end h err res) = false)) /\
  (forall common h e lang info r, e <> "" ->
     (exists rq h' args, signupStart common h (JStr e) lang (Resolved r) = Sends rq (Some (h', args)) /\
        (cb_no_error args = true <-> (200 <= fr_status r <= 299)%Z)) /\
     (exists rq h' args, signupResend common h (JStr e) lang (Resolved r) = Sends rq (Some (h', args)) /\
        (cb_no_error args = true <-> (200 <= fr_status r <= 299)%Z)) /\
     (exists rq h' args, requestPasswordReset common h (JStr e) info lang (Resolved r)
                         = Sends rq (Some (h', args)) /\
        (cb_no_error args = true <-> (200 <= fr_status r <= 299)%Z))).
Proof.
  split; [| split].
  - intros h err res Herr.
    split; [| split].
    + apply signupConfirm_end_ok_iff; exact Herr.
    + apply custodialSignupConfirm_end_ok_iff; exact Herr.
    + apply confirmPasswordReset_end_ok_iff; exact Herr.
  - intros h err res st Herr Hst. split.
    + exact (invitesReceived_end_200_404 h err res st Herr Hst).
    + intros b H200 H404 Hb Hbn. exact (invitesReceived_end_other h err res st b Herr Hst H200 H404 Hb Hbn).
  - intros common h e lang info r He. split; [| split].
    + apply signupStart_resolved_ok_iff; exact He.
    + apply signupResend_resolved_ok_iff; exact He.
    + apply requestPasswordReset_resolved_ok_iff; exact He.
Qed.

Lemma success_predicates_witness :
  is_nullish JNull = true /\ getp demo_404_heap (JRef 0) "status" = Some (JNum 404) /\
  ("a@b.org" <> "") /\
  (handled_ok (signupConfirm_end demo_404_heap JNull (JRef 0)) = true
     <-> getp demo_404_heap (JRef 0) "status" = Some (JNum 200)) /\
  handled_ok (invitesReceived_end demo_404_heap JNull (JRef 0)) = true /\
  (exists rq h' args, signupStart demo_common [] (JStr "a@b.org") JUndef (resp 204 "")
                      = Sends rq (Some (h', args)) /\
     (cb_no_error args = true <-> (200 <= 204 <= 299)%Z)).
Proof.
  split; [reflexivity |]. split; [reflexivity |]. split; [discriminate |].
  destruct success_predicates as [Hsa [Hir Hfetch]].
  split; [apply (Hsa demo_404_heap JNull (JRef 0) eq_refl) |].
  split; [apply (Hir demo_404_heap JNull (JRef 0) (JNum 404) eq_refl eq_refl); right; reflexivity |].
  apply (Hfetch demo_common [] "a@b.org" JUndef JUndef {| fr_status := 204; fr_text := "" |}).
  discriminate.
Defined.

(** ** C2: invitesReceived on error answers *)

(** C2 (divergence). When superagent reports a 500 answer as a transport
    error carrying the response, invitesReceived calls back with the error
    body as its only argument, without the empty list; a 500 answer that
    reaches the response branch gets [(body, [])]. *)
Theorem invitesReceived_error_branch_single_argument :
  invitesReceived_end demo_err_heap (JRef 0) JNull = Some (demo_err_heap, [JRef 2]) /\
  invitesReceived_end demo_res_heap JNull (JRef 0) = Some (app demo_res_heap [new_array], [JRef 1; JRef 2]).
Proof. split; reflexivity. Qed.

(** ** Property writes on the heap *)









(** ** Superagent handlers: transport errors *)







(** ** C5: transport errors *)






(** * Further properties of the module *)

(** ** Fetch-style operations *)

(** A rejected [fetch] (network failure) reaches the callback as its only
    argument, unchanged, and the heap is untouched. *)
Theorem fetch_rejection_passes_reason (common : common_api) (h : heap) (e : string)
    (lang info reason : jsval) (He : e <> "") :
  (exists rq, signupStart common h (JStr e) lang (Rejected reason) = Sends rq (Some (h, [reason]))) /\
  (exists rq, signupResend common h (JStr e) lang (Rejected reason) = Sends rq (Some (h, [reason]))) /\
  (exists rq, requestPasswordReset common h (JStr e) info lang (Rejected reason)
              = Sends rq (Some (h, [reason]))).
Proof.
  unfold signupStart, signupResend, requestPasswordReset.
  rewrite (valid_identifier h e He). repeat split; eexists; reflexivity.
Qed.

Lemma fetch_rejection_passes_reason_witness :
  "a@b.org" <> "" /\
  (exists rq, signupStart demo_common [] (JStr "a@b.org") JUndef (Rejected (JStr "offline"))
              = Sends rq (Some ([], [JStr "offline"]))) /\
  (exists rq, signupResend demo_common [] (JStr "a@b.org") JUndef (Rejected (JStr "offline"))
              = Sends rq (Some ([], [JStr "offline"]))) /\
  (exists rq, requestPasswordReset demo_common [] (JStr "a@b.org") JUndef JUndef (Rejected (JStr "offline"))
              = Sends rq (Some ([], [JStr "offline"]))).
Proof.
  split; [discriminate |].
  apply (fetch_rejection_passes_reason demo_common [] "a@b.org" JUndef JUndef (JStr "offline")).
  discriminate.
Defined.

(** The [?info=ok] query is added when [info] is undefined (the default) or
    any truthy value, and left out for every other falsy value, including
    [null], [0] and [""], which do not trigger the default. *)
Theorem requestPasswordReset_info_truthiness (common : common_api) (h : heap) (e : string)
    (info lang : jsval) (s : fetch_settle) (He : e <> "") :
  exists rq k, requestPasswordReset common h (JStr e) info lang s = Sends rq k /\
    ((info = JUndef \/ truthy info = true) ->
       rq_url rq = makeAPIUrl common ("/confirm/send/forgot/" ++ e ++ "?info=ok")) /\
    (info <> JUndef -> truthy info = false ->
       rq_url rq = makeAPIUrl common ("/confirm/send/forgot/" ++ e)).
Proof.
  unfold requestPasswordReset. rewrite (valid_identifier h e He).
  do 2 eexists. split; [reflexivity |]. cbn [rq_url to_js_string]. split.
  - intros [-> | Ht]; [reflexivity |].
    destruct info; try reflexivity; cbn [default_param]; rewrite Ht; reflexivity.
  - intros Hu Hf. destruct info; try (exfalso; apply Hu; reflexivity);
      cbn [default_param]; rewrite Hf, append_empty_r; reflexivity.
Qed.

Lemma requestPasswordReset_info_truthiness_witness :
  "a@b.org" <> "" /\
  exists rq k, requestPasswordReset demo_common [] (JStr "a@b.org") (JNum 0) JUndef (resp 200 "") = Sends rq k /\
    ((JNum 0 = JUndef \/ truthy (JNum 0) = true) ->
       rq_url rq = makeAPIUrl demo_common ("/confirm/send/forgot/" ++ "a@b.org" ++ "?info=ok")) /\
    (JNum 0 <> JUndef -> truthy (JNum 0) = false ->
       rq_url rq = makeAPIUrl demo_common ("/confirm/send/forgot/" ++ "a@b.org")).
Proof.
  split; [discriminate |].
  apply (requestPasswordReset_info_truthiness demo_common [] "a@b.org" (JNum 0) JUndef (resp 200 "")).
  discriminate.
Defined.

(** The identifier check is exact: signupStart, signupResend and
    requestPasswordReset throw precisely when the identifier is not a
    non-empty string, and otherwise always issue their request. *)
Theorem identifier_check_exact (common : common_api) (h : heap) (id lang info : jsval)
    (s : fetch_settle) :
  ((exists m, signupStart common h id lang s = Throws m) <-> (id = JStr "" \/ isString id = false)) /\
  ((exists m, signupResend common h id lang s = Throws m) <-> (id = JStr "" \/ isString id = false)) /\
  ((exists m, requestPasswordReset common h id info lang s = Throws m) <-> (id = JStr "" \/ isString id = false)) /\
  ((exists rq k, signupStart common h id lang s = Sends rq k) <-> ~ (id = JStr "" \/ isString id = false)).
Proof.
  assert (Hg : isEmpty h id || negb (isString id) = true <-> (id = JStr "" \/ isString id = false)).
  { destruct id as [| | b | z | str | l]; cbn [isString negb]; rewrite ?orb_true_r;
      try (split; [right; reflexivity | reflexivity]).
    rewrite orb_false_r. cbn [isEmpty]. rewrite String.eqb_eq. split.
    - intros ->; left; reflexivity.
    - intros [Heq | Hf]; [injection Heq; auto | discriminate]. }
  unfold signupStart, signupResend, requestPasswordReset.
  destruct (isEmpty h id || negb (isString id)) eqn:E.
  - assert (Hbad : id = JStr "" \/ isString id = false) by (apply Hg; reflexivity).
    repeat split; eauto.
    + intros [rq [k Hk]]; discriminate.
    + intros Hn; contradiction.
  - assert (Hok : ~ (id = JStr "" \/ isString id = false)) by (rewrite <- Hg; congruence).
    repeat split; try (intros [m Hm]; discriminate); try (intro; contradiction).
    + intros _; exact Hok.
    + intros _; do 2 eexists; reflexivity.
Qed.

(** ** Superagent handlers: edge behaviour *)

(** A non-200 answer without a body reaching the response branch makes
    signupConfirm and custodialSignupConfirm read [res.body.reason] on
    undefined: the end handler raises a TypeError and never calls back. *)
Theorem non200_without_body_raises (h : heap) (err res st b : jsval)
    (Herr : is_nullish err = true) (Hst : getp h res "status" = Some st)
    (Hn200 : st <> JNum 200) (Hb : getp h res "body" = Some b) (Hbn : is_nullish b = true) :
  signupConfirm_end h err res = None /\ custodialSignupConfirm_end h err res = None.
Proof.
  assert (Hg : forall k, getp h b k = None).
  { intro k. destruct (is_nullish_true b Hbn) as [-> | ->]; reflexivity. }
  unfold signupConfirm_end, custodialSignupConfirm_end. rewrite Herr. cbn [negb].
  rewrite Hst, (proj2 (strict_eq_false _ _) Hn200). cbn [negb].
  rewrite Hb, !Hg. split; reflexivity.
Qed.

Lemma non200_without_body_raises_witness :
  is_nullish JNull = true /\ getp [new_object [("status", JNum 404)]] (JRef 0) "status" = Some (JNum 404) /\
  JNum 404 <> JNum 200 /\ getp [new_object [("status", JNum 404)]] (JRef 0) "body" = Some JUndef /\
  signupConfirm_end [new_object [("status", JNum 404)]] JNull (JRef 0) = None /\
  custodialSignupConfirm_end [new_object [("status", JNum 404)]] JNull (JRef 0) = None.
Proof.
  split; [reflexivity |]. split; [reflexivity |]. split; [discriminate |]. split; [reflexivity |].
  apply (non200_without_body_raises [new_object [("status", JNum 404)]] JNull (JRef 0) (JNum 404) JUndef);
    first [reflexivity | discriminate].
Defined.

(** On a 200 answer without a transport error, signupConfirm,
    custodialSignupConfirm and confirmPasswordReset call back with no
    argument at all, and allocate nothing. *)
Theorem mutation_200_calls_back_empty (h : heap) (err res : jsval)
    (Herr : is_nullish err = true) (Hst : getp h res "status" = Some (JNum 200)) :
  signupConfirm_end h err res = Some (h, []) /\
  custodialSignupConfirm_end h err res = Some (h, []) /\
  confirmPasswordReset_end h err res = Some (h, []).
Proof.
  unfold signupConfirm_end, custodialSignupConfirm_end, confirmPasswordReset_end.
  rewrite Herr. cbn [negb]. rewrite Hst.
  rewrite (proj2 (strict_eq_true (JNum 200) (JNum 200)) eq_refl). repeat split.
Qed.

Lemma mutation_200_calls_back_empty_witness :
  is_nullish JUndef = true /\ getp [new_object [("status", JNum 200)]] (JRef 0) "status" = Some (JNum 200) /\
  signupConfirm_end [new_object [("status", JNum 200)]] JUndef (JRef 0) = Some ([new_object [("status", JNum 200)]], []) /\
  custodialSignupConfirm_end [new_object [("status", JNum 200)]] JUndef (JRef 0) = Some ([new_object [("status", JNum 200)]], []) /\
  confirmPasswordReset_end [new_object [("status", JNum 200)]] JUndef (JRef 0) = Some ([new_object [("status", JNum 200)]], []).
Proof.
  split; [reflexivity |]. split; [reflexivity |].
  apply (mutation_200_calls_back_empty [new_object [("status", JNum 200)]] JUndef (JRef 0)); reflexivity.
Defined.

(** invitesReceived's response branch: 200 passes [res.body] through as the
    list, whatever it is; 404 gives [(null, [])] with a fresh empty array;
    any other status gives [(res.body, [])]. *)
Theorem invitesReceived_response_branch (h : heap) (err res b : jsval)
    (Herr : is_nullish err = true) (Hb : getp h res "body" = Some b) :
  (getp h res "status" = Some (JNum 200) -> invitesReceived_end h err res = Some (h, [JNull; b])) /\
  (getp h res "status" = Some (JNum 404) ->
     invitesReceived_end h err res = Some (app h [new_array], [JNull; JRef (length h)])) /\
  (forall st, getp h res "status" = Some st -> st <> JNum 200 -> st <> JNum 404 ->
     invitesReceived_end h err res = Some (app h [new_array], [b; JRef (length h)])).
Proof.
  unfold invitesReceived_end. rewrite Herr. cbn [negb]. split; [| split].
  - intros Hst. rewrite Hst, (proj2 (strict_eq_true (JNum 200) (JNum 200)) eq_refl), Hb. reflexivity.
  - intros Hst. rewrite Hst, (proj2 (strict_eq_false (JNum 404) (JNum 200)) ltac:(discriminate)).
    rewrite (proj2 (strict_eq_true (JNum 404) (JNum 404)) eq_refl). reflexivity.
  - intros st Hst H200 H404.
    rewrite Hst, (proj2 (strict_eq_false _ _) H200), (proj2 (strict_eq_false _ _) H404), Hb.
    reflexivity.
Qed.

Lemma invitesReceived_response_branch_witness :
  is_nullish JNull = true /\ getp demo_res_heap (JRef 0) "body" = Some (JRef 1) /\
  invitesReceived_end demo_res_heap JNull (JRef 0) = Some (app demo_res_heap [new_array], [JRef 1; JRef 2]).
Proof.
  split; [reflexivity |]. split; [reflexivity |].
  destruct (invitesReceived_response_branch demo_res_heap JNull (JRef 0) (JRef 1) eq_refl eq_refl)
    as [_ [_ H]].
  apply (H (JNum 500)); first [reflexivity | discriminate].
Defined.

(** invitesReceived's transport-error branch: an error with status 404 gives
    [(null, [])]; for any other status, when the error carries no response or
    no (truthy) body, the callback receives a fresh empty array as its only,
    error, argument. *)
Theorem invitesReceived_transport_error_edges (h : heap) (err res r : jsval)
    (Herr : is_nullish err = false) (Hr : getp h err "response" = Some r) :
  (getp h err "status" = Some (JNum 404) ->
     invitesReceived_end h err res = Some (app h [new_array], [JNull; JRef (length h)])) /\
  (forall st, getp h err "status" = Some st -> st <> JNum 404 ->
     (truthy r = false \/ exists b, getp h r "body" = Some b /\ truthy b = false) ->
     invitesReceived_end h err res = Some (app h [new_array], [JRef (length h)])).
Proof.
  unfold invitesReceived_end. rewrite Herr. cbn [negb]. split.
  - intros Hst. rewrite Hst, (proj2 (strict_eq_true (JNum 404) (JNum 404)) eq_refl). reflexivity.
  - intros st Hst H404 Hf. rewrite Hst, (proj2 (strict_eq_false _ _) H404), Hr. cbn [get_chain].
    destruct (truthy r) eqn:Hrt.
    + destruct Hf as [Hf | [b [Hb Hbf]]]; [discriminate |]. rewrite Hb, Hbf. reflexivity.
    + rewrite Hrt. reflexivity.
Qed.

Lemma invitesReceived_transport_error_edges_witness :
  is_nullish (JRef 0) = false /\
  getp [mkobj "Error" [("status", JNum 500)]] (JRef 0) "response" = Some JUndef /\
  invitesReceived_end [mkobj "Error" [("status", JNum 500)]] (JRef 0) JNull
    = Some ([mkobj "Error" [("status", JNum 500)]; new_array], [JRef 1]).
Proof.
  split; [reflexivity |]. split; [reflexivity |].
  destruct (invitesReceived_transport_error_edges [mkobj "Error" [("status", JNum 500)]] (JRef 0) JNull JUndef
              eq_refl eq_refl) as [_ H].
  apply (H (JNum 500)); [reflexivity | discriminate | left; reflexivity].
Defined.

(** ** The handlers never mutate existing objects outside the error path *)

Ltac only_alloc H :=
  unfold alloc in H; cbn [negb] in H;
  repeat match type of H with
         | context [match ?x with Some _ => _ | None => _ end] => destruct x
         | context [if ?b then _ else _] => destruct b
         end;
  cbn in H; try discriminate;
  injection H as <- _;
  first [exists []; rewrite app_nil_r; reflexivity | eexists; reflexivity].

(** Without a transport error the superagent handlers, and in every case
    invitesReceived's handler and the fetch continuations, only allocate
    new objects: the heap they return extends the one they were given. *)
Theorem handlers_only_allocate :
  (forall h err res h' args, is_nullish err = true ->
     signupConfirm_end h err res = Some (h', args) -> exists ext, h' = app h ext) /\
  (forall h err res h' args, is_nullish err = true ->
     custodialSignupConfirm_end h err res = Some (h', args) -> exists ext, h' = app h ext) /\
  (forall h err res h' args, is_nullish err = true ->
     confirmPasswordReset_end h err res = Some (h', args) -> exists ext, h' = app h ext) /\
  (forall h err res h' args,
     invitesReceived_end h err res = Some (h', args) -> exists ext, h' = app h ext) /\
  (forall h s, exists ext, fst (signupStart_then h s) = app h ext) /\
  (forall h s, exists ext, fst (status_text_then h s) = app h ext).
Proof.
  split; [| split; [| split; [| split; [| split]]]].
  - intros h err res h' args Herr H. unfold signupConfirm_end in H. rewrite Herr in H. only_alloc H.
  - intros h err res h' args Herr H. unfold custodialSignupConfirm_end in H. rewrite Herr in H.
    only_alloc H.
  - intros h err res h' args Herr H. unfold confirmPasswordReset_end in H. rewrite Herr in H.
    only_alloc H.
  - intros h err res h' args H. unfold invitesReceived_end in H. only_alloc H.
  - intros h [r | reason]; cbn; [destruct (fr_ok r); cbn |]; first [exists []; rewrite app_nil_r; reflexivity | eexists; reflexivity].
  - intros h [r | reason]; cbn; [destruct (fr_ok r); cbn |]; first [exists []; rewrite app_nil_r; reflexivity | eexists; reflexivity].
Qed.

Lemma handlers_only_allocate_witness :
  is_nullish JNull = true /\
  signupConfirm_end demo_res_heap JNull (JRef 0)
    = Some (app demo_res_heap [new_object [("status", JNum 500); ("message", JStr "x")]], [JRef 2]) /\
  exists ext, app demo_res_heap [new_object [("status", JNum 500); ("message", JStr "x")]] = app demo_res_heap ext.
Proof.
  split; [reflexivity |]. split; [reflexivity |].
  destruct handlers_only_allocate as [Hsc _].
  exact (Hsc demo_res_heap JNull (JRef 0) _ [JRef 2] eq_refl eq_refl).
Defined.

(** ** confirmPasswordReset: the payload checks *)

(** An undefined or null payload makes [payload.key] raise a TypeError
    synchronously: no request, no callback. *)
Theorem confirmPasswordReset_nullish_payload_throws (common : common_api) (h : heap)
    (payload err res : jsval) (Hn : is_nullish payload = true) :
  confirmPasswordReset common h payload err res = Throws "TypeError".
Proof.
  destruct (is_nullish_true payload Hn) as [-> | ->]; reflexivity.
Qed.

Lemma confirmPasswordReset_nullish_payload_throws_witness :
  is_nullish JUndef = true /\ confirmPasswordReset demo_common [] JUndef JNull JNull = Throws "TypeError".
Proof.
  split; [reflexivity |]. apply confirmPasswordReset_nullish_payload_throws. reflexivity.
Defined.

(** lodash's [_.isEmpty] counts every number and boolean as empty, so a
    payload whose [key], [email] or [password] is a number (say a numeric
    reset key) fails fast with [STATUS_BAD_REQUEST] and is never sent. *)
Theorem confirmPasswordReset_numeric_field_fails_fast (common : common_api) (h : heap)
    (payload err res : jsval) (f : string) (n : Z)
    (Hf : In f ["key"; "email"; "password"]) (Hv : getp h payload f = Some (JNum n)) :
  exists h' o, confirmPasswordReset common h payload err res = Answers h' [o] /\
               getp h' o "status" = Some (STATUS_BAD_REQUEST common).
Proof.
  destruct (getp_same_base h payload f "key" _ Hv) as [key Hk].
  destruct (getp_same_base h payload f "email" _ Hv) as [email He].
  destruct (getp_same_base h payload f "password" _ Hv) as [password Hp].
  assert (Hempty : isEmpty h key || isEmpty h email || isEmpty h password = true).
  { destruct Hf as [<- | [<- | [<- | []]]].
    - rewrite Hk in Hv; injection Hv as ->; reflexivity.
    - rewrite He in Hv; injection Hv as ->; rewrite orb_true_r; reflexivity.
    - rewrite Hp in Hv; injection Hv as ->; rewrite orb_true_r; reflexivity. }
  rewrite (confirmPasswordReset_fail_fast_value common h payload err res key email password Hk He Hp Hempty).
  do 2 eexists. split; [reflexivity |]. rewrite getp_alloc. reflexivity.
Qed.

Lemma confirmPasswordReset_numeric_field_fails_fast_witness :
  In "key" ["key"; "email"; "password"] /\
  getp [new_object [("key", JNum 12345); ("email", JStr "a@b.org"); ("password", JStr "pw")]] (JRef 0) "key"
    = Some (JNum 12345) /\
  exists h' o, confirmPasswordReset demo_common
                 [new_object [("key", JNum 12345); ("email", JStr "a@b.org"); ("password", JStr "pw")]]
                 (JRef 0) JNull JNull = Answers h' [o] /\
               getp h' o "status" = Some (STATUS_BAD_REQUEST demo_common).
Proof.
  split; [left; reflexivity |]. split; [reflexivity |].
  apply (confirmPasswordReset_numeric_field_fails_fast demo_common
           [new_object [("key", JNum 12345); ("email", JStr "a@b.org"); ("password", JStr "pw")]]
           (JRef 0) JNull JNull "key" 12345); [left; reflexivity | reflexivity].
Defined.

(** When the three fields are non-empty, confirmPasswordReset PUTs the
    payload object itself (with any extra fields) to
    [/confirm/accept/forgot] and answers through its end handler. *)
Theorem confirmPasswordReset_sends_payload (common : common_api) (h : heap) (payload err res : jsval)
    (key email password : jsval)
    (Hk : getp h payload "key" = Some key) (He : getp h payload "email" = Some email)
    (Hp : getp h payload "password" = Some password)
    (Hk' : isEmpty h key = false) (He' : isEmpty h email = false) (Hp' : isEmpty h password = false) :
  confirmPasswordReset common h payload err res
  = Sends {| rq_transport := Superagent; rq_method := "PUT";
             rq_url := makeAPIUrl common "/confirm/accept/forgot";
             rq_headers := []; rq_body := BodyValue payload; rq_cache := None |}
          (confirmPasswordReset_end h err res).
Proof. unfold confirmPasswordReset. rewrite Hk, Hk', He, He', Hp, Hp'. reflexivity. Qed.

Lemma confirmPasswordReset_sends_payload_witness :
  let h := [new_object [("key", JStr "k1"); ("email", JStr "a@b.org"); ("password", JStr "pw")]] in
  getp h (JRef 0) "key" = Some (JStr "k1") /\ getp h (JRef 0) "email" = Some (JStr "a@b.org") /\
  getp h (JRef 0) "password" = Some (JStr "pw") /\
  isEmpty h (JStr "k1") = false /\ isEmpty h (JStr "a@b.org") = false /\ isEmpty h (JStr "pw") = false /\
  confirmPasswordReset demo_common h (JRef 0) JNull JNull
  = Sends {| rq_transport := Superagent; rq_method := "PUT";
             rq_url := makeAPIUrl demo_common "/confirm/accept/forgot";
             rq_headers := []; rq_body := BodyValue (JRef 0); rq_cache := None |}
          (confirmPasswordReset_end h JNull JNull).
Proof.
  intro h. do 6 (split; [reflexivity |]).
  apply (confirmPasswordReset_sends_payload demo_common h (JRef 0) JNull JNull
           (JStr "k1") (JStr "a@b.org") (JStr "pw")); reflexivity.
Defined.
